(** * SlackWebhookHook: token resolution, payload construction, execute

    A shallow embedding of
    [airflow/providers/slack/hooks/slack_webhook.py].

    Python values are modelled by the JSON-shaped type [json]; Python
    dictionaries by stdpp's [gmap] with string keys; truthiness ([if x:])
    by the class [Truthy].  The hook's effects (asking the platform for a
    connection, [warnings.warn], the HTTP POST made by [HttpHook.run]) are
    recorded as a trace of events, and exceptions as an outcome, in a small
    writer/error monad. *)

From Stdlib Require Import SpecFloat.
From stdpp Require Import gmap strings list fin_maps.

Set Warnings "-register-all,-clear-no-such-hyp".

(** ** Python values *)

(** The values [json.loads] produces and [json.dumps] accepts.  A Python
    float is an IEEE 754 value: a signed zero, an infinity, a NaN or a
    finite number. *)
Inductive json : Type :=
| JNull
| JBool (b : bool)
| JInt (z : Z)
| JFloat (f : spec_float)
| JStr (s : string)
| JList (l : list json)
| JDict (d : gmap string json).

(** Python truthiness, the test behind [if x:]. *)
Class Truthy (A : Type) := truth : A → bool.
Global Hint Mode Truthy ! : typeclass_instances.

#[global] Instance bool_truthy : Truthy bool := λ b, b.

#[global] Instance string_truthy : Truthy string := λ s,
  match s with
  | EmptyString => false
  | String _ _ => true
  end.

#[global] Instance list_truthy {A} : Truthy (list A) := λ l,
  match l with
  | [] => false
  | _ :: _ => true
  end.

(** [None] is falsy; any other value has its own truthiness. *)
#[global] Instance option_truthy {A} `{Truthy A} : Truthy (option A) := λ o,
  match o with
  | None => false
  | Some a => truth a
  end.

#[global] Instance json_truthy : Truthy json := λ v,
  match v with
  | JNull => false
  | JBool b => b
  | JInt z => negb (Z.eqb z 0)
  | JFloat f => match f with S754_zero _ => false | _ => true end
  | JStr s => truth s
  | JList l => truth l
  | JDict d => negb (bool_decide (d = ∅))
  end.

(** How a typed Python value sits inside a JSON document. *)
Class ToJson (A : Type) := to_json : A → json.
Global Hint Mode ToJson ! : typeclass_instances.

#[global] Instance json_to_json : ToJson json := λ v, v.
#[global] Instance string_to_json : ToJson string := JStr.
#[global] Instance bool_to_json : ToJson bool := JBool.
#[global] Instance list_to_json {A} `{ToJson A} : ToJson (list A) :=
  λ l, JList (to_json <$> l).
#[global] Instance option_to_json {A} `{ToJson A} : ToJson (option A) := λ o,
  match o with
  | None => JNull
  | Some a => to_json a
  end.

(** [d.get(key, default)] *)
Definition dict_get {V} (d : gmap string V) (key : string) (default : V) : V :=
  match d !! key with
  | Some v => v
  | None => default
  end.

(** ** Collaborators and effects *)

(** Modelled from the spec: the connection record of the host platform, of
    which the hook reads [password] (through [getattr(conn, 'password',
    None)]) and [extra_dejson] (the "extra" field parsed as a JSON object). *)
Record Connection := {
  password : option string;
  extra_dejson : gmap string json;
}.

Inductive exn :=
| AirflowException (msg : string)
| AirflowNotFoundException (conn_id : string)
| ClientError (what : string).

(** The keyword arguments [HttpHook.run] is called with. *)
Record extra_options_t := {
  proxies : gmap string string;
  check_response : bool;
}.

Record request := {
  endpoint : json;
  data : string;
  headers : gmap string string;
  extra_options : extra_options_t;
}.

Inductive event :=
| GetConnection (conn_id : string)
| Warn (category message : string)
| HttpPost (req : request).

Inductive outcome (A : Type) :=
| Ok (a : A)
| Raise (e : exn).
Arguments Ok {A} a.
Arguments Raise {A} e.

(** A computation emits events, then returns or raises. *)
Definition M (A : Type) : Type := list event * outcome A.

Definition raise {A} (e : exn) : M A := ([], Raise e).
Definition emit (ev : event) : M unit := ([ev], Ok tt).
#[global] Instance M_ret : MRet M := λ A a, ([], Ok a).
#[global] Instance M_bind : MBind M := λ A B k m,
  match m with
  | (t, Ok a) => let '(t', r) := k a in (t ++ t', r)
  | (t, Raise e) => (t, Raise e)
  end.

Definition trace {A} (m : M A) : list event := m.1.
Definition result {A} (m : M A) : outcome A := m.2.

Definition is_warn (ev : event) : bool :=
  match ev with Warn _ _ => true | _ => false end.
Definition is_lookup (ev : event) : bool :=
  match ev with GetConnection _ => true | _ => false end.
Definition is_post (ev : event) : bool :=
  match ev with HttpPost _ => true | _ => false end.

(** Number of events of a kind in a trace. *)
Definition count (p : event → bool) (t : list event) : nat :=
  length (filter (λ ev, p ev = true) t).

(** ** The hook *)

Record SlackWebhookHook := {
  http_conn_id : option string;
  webhook_token : json;
  message : string;
  attachments : option (list json);
  blocks : option (list json);
  channel : option string;
  username : option string;
  icon_emoji : option string;
  icon_url : option string;
  link_names : bool;
  proxy : option string;
}.

Definition deprecation_message : string :=
  "'webhook_token' in 'extra' is deprecated. Please use 'password' field".

Definition no_token_message : string :=
  "Cannot get token: No valid Slack webhook token nor conn_id supplied".

Section Hook.
(** The connections the host platform knows, by name. *)
Variable connections : gmap string Connection.
(** What the HTTP client answers to a request: [None] for success, or the
    error it raises (transport failure, or a non-2xx status when
    [check_response] is set). *)
Variable http_client : request → option exn.
(** [json.dumps] of the standard library. *)
Variable json_dumps : json → string.

(** Modelled from the spec: [get_connection] of the base hook, which asks
    the Credential Resolver for the connection of that name and fails with
    a not-found error when the name is unknown. *)
Definition get_connection (conn_id : string) : M Connection :=
  emit (GetConnection conn_id);;
  match connections !! conn_id with
  | Some conn => mret conn
  | None => raise (AirflowNotFoundException conn_id)
  end.

(** Modelled from the spec: [run] of the base hook, which hands the
    request to the HTTP client as one POST and lets its error through. *)
Definition run (endpoint : json) (data : string)
    (headers : gmap string string) (extra_options : extra_options_t)
    : M unit :=
  let req := {| endpoint := endpoint; data := data; headers := headers;
                extra_options := extra_options |} in
  emit (HttpPost req);;
  match http_client req with
  | None => mret tt
  | Some e => raise e
  end.

(** [token] and [http_conn_id] are a string or [None].  In the branch
    that asks for the connection [http_conn_id] is a non-empty string, so
    the [default] never applies. *)
Definition _get_token (token : option string) (http_conn_id : option string)
    : M json :=
  if truth token then
    mret (to_json token)
  else if truth http_conn_id then
    conn ← get_connection (default "" http_conn_id);
    if truth (password conn) then
      mret (to_json (password conn))
    else
      let extra := extra_dejson conn in
      let web_token := dict_get extra "webhook_token" (JStr "") in
      (if truth web_token then
         emit (Warn "DeprecationWarning" deprecation_message)
       else mret tt);;
      mret web_token
  else
    raise (AirflowException no_token_message).

(** The constructor.  [super().__init__] of the base hook, which runs
    first, only stores its arguments; the token is resolved next, and an
    error of [_get_token] leaves no hook behind. *)
Definition __init__ (http_conn_id webhook_token : option string)
    (message : string) (attachments blocks : option (list json))
    (channel username icon_emoji icon_url : option string)
    (link_names : bool) (proxy : option string) : M SlackWebhookHook :=
  tok ← _get_token webhook_token http_conn_id;
  mret {| http_conn_id := http_conn_id; webhook_token := tok;
         message := message; attachments := attachments; blocks := blocks;
         channel := channel; username := username;
         icon_emoji := icon_emoji; icon_url := icon_url;
         link_names := link_names; proxy := proxy |}.

(** The dictionary [cmd] as it stands when [json.dumps] is called. *)
Definition build_cmd (self : SlackWebhookHook) : gmap string json :=
  let cmd : gmap string json := ∅ in
  let cmd := if truth (channel self)
             then <["channel" := to_json (channel self)]> cmd else cmd in
  let cmd := if truth (username self)
             then <["username" := to_json (username self)]> cmd else cmd in
  let cmd := if truth (icon_emoji self)
             then <["icon_emoji" := to_json (icon_emoji self)]> cmd else cmd in
  let cmd := if truth (icon_url self)
             then <["icon_url" := to_json (icon_url self)]> cmd else cmd in
  let cmd := if truth (link_names self)
             then <["link_names" := JInt 1]> cmd else cmd in
  let cmd := if truth (attachments self)
             then <["attachments" := to_json (attachments self)]> cmd else cmd in
  let cmd := if truth (blocks self)
             then <["blocks" := to_json (blocks self)]> cmd else cmd in
  <["text" := to_json (message self)]> cmd.

Definition _build_slack_message (self : SlackWebhookHook) : string :=
  json_dumps (JDict (build_cmd self)).

Definition execute (self : SlackWebhookHook) : M unit :=
  let proxies : gmap string string := ∅ in
  let proxies := if truth (proxy self)
                 then {["https" := default "" (proxy self)]} else proxies in
  let slack_message := _build_slack_message self in
  run (webhook_token self) slack_message
      {["Content-type" := "application/json"]}
      {| proxies := proxies; check_response := true |}.


(** The request [execute] hands to the HTTP client. *)
Definition request_of (self : SlackWebhookHook) : request :=
  {| endpoint := webhook_token self;
     data := _build_slack_message self;
     headers := {["Content-type" := "application/json"]};
     extra_options :=
       {| proxies := if truth (proxy self)
                     then {["https" := default "" (proxy self)]} else ∅;
          check_response := true |} |}.


End Hook.

(** ** The payload and its keys, as specified *)

(** The payload as the specification words it, key by key: [text] always,
    a string field when it is set to a non-empty string, [link_names] as
    the integer 1 when the flag is true, a list field when it is a
    non-empty list; no other key. *)
Definition string_if_set (field : option string) : option json :=
  match field with
  | Some (String a s) => Some (JStr (String a s))
  | _ => None
  end.

Definition list_if_nonempty (field : option (list json)) : option json :=
  match field with
  | Some (x :: l) => Some (JList (x :: l))
  | _ => None
  end.

Definition one_if_true (flag : bool) : option json :=
  if flag then Some (JInt 1) else None.

Definition payload_spec (self : SlackWebhookHook) (key : string) : option json :=
  if decide (key = "text") then Some (JStr (message self))
  else if decide (key = "channel") then string_if_set (channel self)
  else if decide (key = "username") then string_if_set (username self)
  else if decide (key = "icon_emoji") then string_if_set (icon_emoji self)
  else if decide (key = "icon_url") then string_if_set (icon_url self)
  else if decide (key = "link_names") then one_if_true (link_names self)
  else if decide (key = "attachments") then list_if_nonempty (attachments self)
  else if decide (key = "blocks") then list_if_nonempty (blocks self)
  else None.

(** The keys the specification expects in the payload. *)
Definition key_if (present : bool) (key : string) : gset string :=
  if present then {[key]} else ∅.

Definition payload_keys (self : SlackWebhookHook) : gset string :=
  {["text"]}
  ∪ key_if (truth (channel self)) "channel"
  ∪ key_if (truth (username self)) "username"
  ∪ key_if (truth (icon_emoji self)) "icon_emoji"
  ∪ key_if (truth (icon_url self)) "icon_url"
  ∪ key_if (link_names self) "link_names"
  ∪ key_if (truth (attachments self)) "attachments"
  ∪ key_if (truth (blocks self)) "blocks".

(** Every optional field at its default. *)
Definition all_unset (self : SlackWebhookHook) : Prop :=
  channel self = None ∧ username self = None ∧ icon_emoji self = None
  ∧ icon_url self = None ∧ link_names self = false
  ∧ attachments self = None ∧ blocks self = None.

(** Two values of an optional string field that the payload cannot tell
    apart: the same value, or unset on one side and the empty string on the
    other. *)
Definition unset_or_blank (field : option string) : Prop :=
  field = None ∨ field = Some "".

Definition same_or_blank (a b : option string) : Prop :=
  a = b ∨ (unset_or_blank a ∧ unset_or_blank b).

(** The two values of an optional list field that leave its key out. *)
Definition unset_or_empty (field : option (list json)) : Prop :=
  field = None ∨ field = Some [].

(** The number of optional fields of a hook that are set. *)
Definition fields_set (self : SlackWebhookHook) : nat :=
  Nat.b2n (truth (channel self)) + Nat.b2n (truth (username self))
  + Nat.b2n (truth (icon_emoji self)) + Nat.b2n (truth (icon_url self))
  + Nat.b2n (truth (link_names self)) + Nat.b2n (truth (attachments self))
  + Nat.b2n (truth (blocks self)).

(** ** Running the model on concrete inputs *)

Definition conn_with_password : Connection :=
  {| password := Some "T000/B000/XXXX"; extra_dejson := {["webhook_token" := JStr "old"]} |}.
Definition conn_with_extra : Connection :=
  {| password := None; extra_dejson := {["webhook_token" := JStr "T111/B111/YYYY"]} |}.
Definition conn_blank : Connection :=
  {| password := Some ""; extra_dejson := ∅ |}.
Definition conn_null_extra : Connection :=
  {| password := None; extra_dejson := {["webhook_token" := JNull]} |}.

Definition sample_connections : gmap string Connection :=
  <["slack_default" := conn_with_password]>
  (<["slack_legacy" := conn_with_extra]>
  (<["slack_blank" := conn_blank]>
  (<["slack_null" := conn_null_extra]> ∅))).

Definition always_ok : request → option exn := λ _, None.

(** A stand-in for [json.dumps] where a concrete run needs one. *)
Definition opaque_dumps : json → string := λ _, "<json>".

Definition sample_hook_of (conn_id : string) (tok : json) : SlackWebhookHook :=
  {| http_conn_id := Some conn_id; webhook_token := tok;
     message := "hello"; attachments := None; blocks := None;
     channel := None; username := None; icon_emoji := None;
     icon_url := None; link_names := false; proxy := None |}.

Definition sample_hook : json → SlackWebhookHook := sample_hook_of "slack_blank".

Definition hook_blank_channel : SlackWebhookHook :=
  {| http_conn_id := None; webhook_token := JStr "tok";
     message := "hello"; attachments := None; blocks := None;
     channel := Some ""; username := Some "airflow"; icon_emoji := None;
     icon_url := None; link_names := true; proxy := Some "http://p:8080" |}.

Definition hook_unset_channel : SlackWebhookHook :=
  {| http_conn_id := None; webhook_token := JStr "tok";
     message := "hello"; attachments := None; blocks := None;
     channel := None; username := Some "airflow"; icon_emoji := None;
     icon_url := None; link_names := true; proxy := Some "http://p:8080" |}.

Definition hook_with_lists : SlackWebhookHook :=
  {| http_conn_id := Some "slack_default"; webhook_token := JStr "tok";
     message := "hello"; attachments := Some [];
     blocks := Some [JDict {["type" := JStr "divider"]}];
     channel := Some "#general"; username := None; icon_emoji := None;
     icon_url := None; link_names := false; proxy := None |}.

Definition hook_other_token : SlackWebhookHook :=
  {| http_conn_id := Some "slack_legacy"; webhook_token := JStr "T111/B111/YYYY";
     message := "hello"; attachments := None; blocks := None;
     channel := None; username := Some "airflow"; icon_emoji := None;
     icon_url := None; link_names := true; proxy := None |}.

Definition refusing_client : request → option exn :=
  λ _, Some (ClientError "503 Service Unavailable").

(** ** Properties *)

Example get_token_password_run :
  _get_token sample_connections None (Some "slack_default")
  = ([GetConnection "slack_default"], Ok (JStr "T000/B000/XXXX")).
Proof. reflexivity. Qed.

Example get_token_legacy_run :
  _get_token sample_connections (Some "") (Some "slack_legacy")
  = ([GetConnection "slack_legacy"; Warn "DeprecationWarning" deprecation_message],
     Ok (JStr "T111/B111/YYYY")).
Proof. reflexivity. Qed.

Example get_token_unknown_run :
  _get_token sample_connections None (Some "nowhere")
  = ([GetConnection "nowhere"], Raise (AirflowNotFoundException "nowhere")).
Proof. reflexivity. Qed.

Example build_cmd_run :
  build_cmd {| http_conn_id := None; webhook_token := JStr "tok";
               message := "hello"; attachments := None; blocks := Some [];
               channel := Some "#general"; username := None;
               icon_emoji := Some ""; icon_url := None;
               link_names := true; proxy := None |}
  = <["channel" := JStr "#general"]>
    (<["link_names" := JInt 1]> {["text" := JStr "hello"]}).
Proof. reflexivity. Qed.

(** ** Truthiness facts *)

Lemma truth_string (s : string) : truth s = true ↔ s ≠ "".
Proof. destruct s; split; intros; try done. Qed.

Lemma truth_string_false (s : string) : truth s = false ↔ s = "".
Proof. destruct s; split; intros; try done. Qed.

Lemma truth_some_string (s : string) : s ≠ "" → truth (Some s) = true.
Proof. intros. by apply truth_string. Qed.

Lemma falsy_option_string (o : option string) :
  truth o = false ↔ o = None ∨ o = Some "".
Proof.
  destruct o as [s|]; simpl; [|naive_solver].
  change (truth (Some s)) with (truth s). rewrite truth_string_false.
  naive_solver.
Qed.

(** A falsy JSON value is one of Python's empty values. *)
Lemma falsy_json (v : json) :
  truth v = false ↔
  v = JNull ∨ v = JBool false ∨ v = JInt 0 ∨ (∃ sgn, v = JFloat (S754_zero sgn))
  ∨ v = JStr "" ∨ v = JList [] ∨ v = JDict ∅.
Proof.
  destruct v as [|b|z|f|s|l|d]; cbn.
  - naive_solver.
  - destruct b; naive_solver.
  - rewrite negb_false_iff, Z.eqb_eq. naive_solver.
  - destruct f; naive_solver.
  - change (truth s) with (string_truthy s). destruct s; naive_solver.
  - destruct l; naive_solver.
  - rewrite negb_false_iff, bool_decide_eq_true. naive_solver.
Qed.

(** ** Token resolution *)

Section TokenResolution.
Variable connections : gmap string Connection.

(** The three ways through the connection branch share their start: the
    explicit token is falsy, the connection name is not, and the lookup
    succeeds. *)
Lemma get_token_via_connection token c conn :
  truth token = false → c ≠ "" → connections !! c = Some conn →
  _get_token connections token (Some c)
  = (conn ← get_connection connections c;
     if truth (password conn) then mret (to_json (password conn))
     else
       let web_token := dict_get (extra_dejson conn) "webhook_token" (JStr "") in
       (if truth web_token
        then emit (Warn "DeprecationWarning" deprecation_message)
        else mret tt);;
       mret web_token).
Proof.
  intros Htok Hc _. unfold _get_token. rewrite Htok.
  by rewrite (truth_some_string c Hc).
Qed.

Lemma get_connection_found c conn :
  connections !! c = Some conn →
  get_connection connections c = ([GetConnection c], Ok conn).
Proof. intros H. unfold get_connection. rewrite H. reflexivity. Qed.

(** C1: a non-empty explicit token is returned as it is, whatever the
    connection name and whatever the platform's connections. *)
Theorem get_token_explicit (t : string) (conn_id : option string) :
  t ≠ "" →
  _get_token connections (Some t) conn_id = ([], Ok (JStr t)).
Proof.
  intros Ht. unfold _get_token. by rewrite (truth_some_string t Ht).
Qed.

(** C10: with a non-empty explicit token no connection is looked up, so
    resolution returns and raises no not-found error, even for a
    connection name the platform does not know. *)
Theorem get_token_explicit_no_lookup (t : string) (conn_id : option string) :
  t ≠ "" →
  count is_lookup (trace (_get_token connections (Some t) conn_id)) = 0
  ∧ (∀ c, GetConnection c ∉ trace (_get_token connections (Some t) conn_id))
  ∧ (∃ v, result (_get_token connections (Some t) conn_id) = Ok v)
  ∧ (∀ c, result (_get_token connections (Some t) conn_id)
          ≠ Raise (AirflowNotFoundException c)).
Proof.
  intros Ht. unfold _get_token. rewrite (truth_some_string t Ht). cbn.
  split_and!; [done | intros c Hin; by apply elem_of_nil in Hin
              | by eexists | done].
Qed.

(** C3: with neither an explicit token nor a connection name (each absent
    or empty) resolution raises the configuration error at once: nothing
    has been looked up or posted, and the constructor fails with it, so no
    hook exists to execute. *)
Theorem get_token_nothing_supplied (token conn_id : option string) :
  truth token = false → truth conn_id = false →
  _get_token connections token conn_id
  = ([], Raise (AirflowException no_token_message))
  ∧ ∀ message attachments blocks channel username icon_emoji icon_url
      link_names proxy,
      __init__ connections conn_id token message attachments blocks channel
               username icon_emoji icon_url link_names proxy
      = ([], Raise (AirflowException no_token_message)).
Proof.
  intros Htok Hid.
  assert (_get_token connections token conn_id
          = ([], Raise (AirflowException no_token_message))) as E.
  { unfold _get_token. by rewrite Htok, Hid. }
  split; [done|]. intros. unfold __init__. by rewrite E.
Qed.

(** C5: when the connection's password is non-empty it is the token; the
    "extra" field is not consulted and no warning is emitted. *)
Theorem get_token_password token c conn p :
  truth token = false → c ≠ "" → connections !! c = Some conn →
  password conn = Some p → p ≠ "" →
  _get_token connections token (Some c) = ([GetConnection c], Ok (JStr p))
  ∧ count is_warn (trace (_get_token connections token (Some c))) = 0.
Proof.
  intros Htok Hc Hconn Hp Hne.
  rewrite (get_token_via_connection token c conn Htok Hc Hconn).
  rewrite (get_connection_found c conn Hconn). cbn.
  rewrite Hp, (truth_some_string p Hne). done.
Qed.

(** C6: with an empty password and a non-empty [webhook_token] in
    "extra", that value is the token and exactly one deprecation warning
    is emitted. *)
Theorem get_token_extra token c conn X :
  truth token = false → c ≠ "" → connections !! c = Some conn →
  truth (password conn) = false →
  extra_dejson conn !! "webhook_token" = Some X → truth X = true →
  _get_token connections token (Some c)
  = ([GetConnection c; Warn "DeprecationWarning" deprecation_message], Ok X)
  ∧ count is_warn (trace (_get_token connections token (Some c))) = 1.
Proof.
  intros Htok Hc Hconn Hp HX Htr.
  rewrite (get_token_via_connection token c conn Htok Hc Hconn).
  rewrite (get_connection_found c conn Hconn). cbn.
  rewrite Hp. unfold dict_get. rewrite HX, Htr. done.
Qed.

(** With an empty password and nothing under [webhook_token], the run of
    [_get_token] is the lookup followed by the empty string. *)
Lemma get_token_blank_run token c conn :
  truth token = false → c ≠ "" → connections !! c = Some conn →
  truth (password conn) = false →
  extra_dejson conn !! "webhook_token" = None
  ∨ extra_dejson conn !! "webhook_token" = Some (JStr "") →
  _get_token connections token (Some c) = ([GetConnection c], Ok (JStr "")).
Proof.
  intros Htok Hc Hconn Hp Hw.
  rewrite (get_token_via_connection token c conn Htok Hc Hconn).
  rewrite (get_connection_found c conn Hconn). cbn.
  rewrite Hp. unfold dict_get. by destruct Hw as [-> | ->].
Qed.

(** X11: with an empty password and an "extra" that has no
    [webhook_token], or holds the empty string under it, resolution returns
    the empty string after the one lookup: it neither raises nor warns. *)
Theorem get_token_empty_connection token c conn :
  truth token = false → c ≠ "" → connections !! c = Some conn →
  truth (password conn) = false →
  extra_dejson conn !! "webhook_token" = None
  ∨ extra_dejson conn !! "webhook_token" = Some (JStr "") →
  _get_token connections token (Some c) = ([GetConnection c], Ok (JStr ""))
  ∧ count is_warn (trace (_get_token connections token (Some c))) = 0.
Proof.
  intros Htok Hc Hconn Hp Hw.
  by rewrite (get_token_blank_run token c conn Htok Hc Hconn Hp Hw).
Qed.

End TokenResolution.

(** ** Payload construction *)

Section Payload.
Variable json_dumps : json → string.

(** One guarded assignment [if field: cmd[key] = value], read at [k]. *)
Lemma lookup_guarded_insert (b : bool) (key : string) (v : json)
    (cmd : gmap string json) (k : string) :
  (if b then <[key := v]> cmd else cmd) !! k
  = if b then (if decide (key = k) then Some v else cmd !! k) else cmd !! k.
Proof. destruct b; [apply lookup_insert | done]. Qed.

Lemma string_field_entry (field : option string) :
  (if truth field then Some (to_json field) else None) = string_if_set field.
Proof. by destruct field as [[|a s]|]. Qed.

Lemma list_field_entry (field : option (list json)) :
  (if truth field then Some (to_json field) else None) = list_if_nonempty field.
Proof.
  destruct field as [[|x l]|]; try done. cbn.
  unfold to_json, option_to_json, list_to_json, to_json, json_to_json.
  by rewrite list_fmap_id.
Qed.

Lemma flag_entry (flag : bool) :
  (if truth flag then Some (JInt 1) else None) = one_if_true flag.
Proof. by destruct flag. Qed.

(** The dictionary the code builds is the payload of the specification. *)
Lemma build_cmd_lookup (self : SlackWebhookHook) (k : string) :
  build_cmd self !! k = payload_spec self k.
Proof.
  unfold build_cmd, payload_spec.
  rewrite lookup_insert, !lookup_guarded_insert, lookup_empty.
  rewrite <- !string_field_entry, <- !list_field_entry, <- flag_entry.
  repeat case_decide; subst; try done;
    repeat match goal with |- context [truth ?x] => destruct (truth x) end;
    done.
Qed.

Lemma is_Some_string_if_set (field : option string) :
  is_Some (string_if_set field) ↔ truth field = true.
Proof.
  destruct field as [[|a s]|]; cbn; rewrite ?is_Some_alt; naive_solver.
Qed.

Lemma is_Some_list_if_nonempty (field : option (list json)) :
  is_Some (list_if_nonempty field) ↔ truth field = true.
Proof.
  destruct field as [[|x l]|]; cbn; rewrite ?is_Some_alt; naive_solver.
Qed.

Lemma elem_of_key_if (b : bool) (key k : string) :
  k ∈ key_if b key ↔ b = true ∧ k = key.
Proof. destruct b; cbn; set_solver. Qed.

Lemma build_cmd_dom (self : SlackWebhookHook) :
  dom (build_cmd self) = payload_keys self.
Proof.
  apply set_eq. intros k.
  rewrite elem_of_dom, build_cmd_lookup. unfold payload_spec, payload_keys.
  rewrite !elem_of_union, !elem_of_key_if, elem_of_singleton.
  repeat case_decide; subst;
    rewrite ?is_Some_string_if_set, ?is_Some_list_if_nonempty;
    try (unfold one_if_true; destruct (link_names self));
    rewrite ?is_Some_alt; naive_solver.
Qed.

(** C2: the payload is the JSON object whose keys are [text], bound to
    the message, and exactly the optional keys whose field is set:
    each string field when non-empty, [link_names] as the integer 1 when
    the flag is true and absent otherwise, [attachments] and [blocks]
    when the list is non-empty; with every optional field unset it is
    the object with the single key [text]. *)
Theorem build_slack_message_payload (self : SlackWebhookHook) :
  _build_slack_message json_dumps self = json_dumps (JDict (build_cmd self))
  ∧ (∀ key, build_cmd self !! key = payload_spec self key)
  ∧ dom (build_cmd self) = payload_keys self
  ∧ build_cmd self !! "text" = Some (JStr (message self))
  ∧ build_cmd self !! "link_names"
    = (if link_names self then Some (JInt 1) else None)
  ∧ (all_unset self → build_cmd self = {["text" := JStr (message self)]}).
Proof.
  split_and!.
  - reflexivity.
  - apply build_cmd_lookup.
  - apply build_cmd_dom.
  - by rewrite build_cmd_lookup.
  - by rewrite build_cmd_lookup.
  - intros (Hc & Hu & He & Hi & Hl & Ha & Hb).
    unfold build_cmd. by rewrite Hc, Hu, He, Hi, Hl, Ha, Hb.
Qed.

End Payload.

Section BlankFields.
Variable json_dumps : json → string.

Lemma unset_or_blank_falsy (field : option string) :
  unset_or_blank field → truth field = false.
Proof. by intros [-> | ->]. Qed.

Lemma string_if_set_same_or_blank (a b : option string) :
  same_or_blank a b → string_if_set a = string_if_set b.
Proof. intros [-> | [[-> | ->] [-> | ->]]]; reflexivity. Qed.

(** C9: a hook whose [channel], [username], [icon_emoji] or [icon_url]
    is the empty string builds the payload of the hook where that field
    is unset: the key is omitted in both. *)
Theorem blank_string_as_unset (self self' : SlackWebhookHook) :
  message self = message self' →
  attachments self = attachments self' →
  blocks self = blocks self' →
  link_names self = link_names self' →
  same_or_blank (channel self) (channel self') →
  same_or_blank (username self) (username self') →
  same_or_blank (icon_emoji self) (icon_emoji self') →
  same_or_blank (icon_url self) (icon_url self') →
  build_cmd self = build_cmd self'
  ∧ _build_slack_message json_dumps self = _build_slack_message json_dumps self'
  ∧ (unset_or_blank (channel self) → build_cmd self !! "channel" = None)
  ∧ (unset_or_blank (username self) → build_cmd self !! "username" = None)
  ∧ (unset_or_blank (icon_emoji self) → build_cmd self !! "icon_emoji" = None)
  ∧ (unset_or_blank (icon_url self) → build_cmd self !! "icon_url" = None).
Proof.
  intros Hm Ha Hb Hl Hc Hu He Hi.
  assert (build_cmd self = build_cmd self') as E.
  { apply map_eq. intros k. rewrite !build_cmd_lookup. unfold payload_spec.
    rewrite Hm, Ha, Hb, Hl.
    rewrite (string_if_set_same_or_blank _ _ Hc),
            (string_if_set_same_or_blank _ _ Hu),
            (string_if_set_same_or_blank _ _ He),
            (string_if_set_same_or_blank _ _ Hi).
    reflexivity. }
  split_and!; [done | unfold _build_slack_message; by rewrite E | ..];
    intros H; rewrite build_cmd_lookup; unfold payload_spec; simpl;
    by destruct H as [-> | ->].
Qed.

End BlankFields.

(** ** Execute *)

Section Execute.
Variable http_client : request → option exn.
Variable json_dumps : json → string.

(** [execute] makes exactly one POST, whatever the hook holds, and
    returns or raises as the HTTP client does. *)
Lemma execute_posts_once (self : SlackWebhookHook) :
  trace (execute http_client json_dumps self) = [HttpPost (request_of json_dumps self)]
  ∧ result (execute http_client json_dumps self)
    = match http_client (request_of json_dumps self) with
      | None => Ok tt
      | Some e => Raise e
      end.
Proof.
  unfold execute, run. cbn. fold (request_of json_dumps self).
  by destruct (http_client (request_of json_dumps self)).
Qed.

(** C7: with a proxy configured the HTTP client is handed the proxies
    mapping with the single key [https], bound to the proxy, and no
    [http] key; with none (unset or empty) the mapping is empty. *)
Theorem execute_proxies (self : SlackWebhookHook) :
  ∃ req,
    trace (execute http_client json_dumps self) = [HttpPost req]
    ∧ (∀ p, proxy self = Some p → p ≠ "" →
         proxies (extra_options req) = {["https" := p]}
         ∧ dom (proxies (extra_options req)) = {["https"]}
         ∧ proxies (extra_options req) !! "http" = None)
    ∧ (truth (proxy self) = false → proxies (extra_options req) = ∅).
Proof.
  exists (request_of json_dumps self). split; [apply execute_posts_once|]. cbn. split.
  - intros p -> Hp. rewrite (truth_some_string p Hp). cbn.
    split_and!; [done | by rewrite dom_singleton_L | done].
  - by intros ->.
Qed.

End Execute.

(** ** The stored token and the send *)

Section TokenBeforeSend.
Variable connections : gmap string Connection.
Variable http_client : request → option exn.
Variable json_dumps : json → string.

Lemma truth_to_json_string (o : option string) : truth (to_json o) = truth o.
Proof. by destruct o. Qed.

(** A constructor that returns has stored what [_get_token] returned. *)
Lemma init_ok_inv conn_id token message attachments blocks channel username
    icon_emoji icon_url link_names proxy t h :
  __init__ connections conn_id token message attachments blocks channel
           username icon_emoji icon_url link_names proxy = (t, Ok h) →
  _get_token connections token conn_id = (t, Ok (webhook_token h)).
Proof.
  unfold __init__.
  destruct (_get_token connections token conn_id) as [t' [v|e]]; cbn;
    [|done].
  intros [= <- <-]. cbn. by rewrite app_nil_r.
Qed.

(** The two ways [_get_token] returns a value. *)
Lemma get_token_ok_inv token conn_id t v :
  _get_token connections token conn_id = (t, Ok v) →
  (truth token = true ∧ v = to_json token)
  ∨ (truth token = false ∧ ∃ c conn,
       conn_id = Some c ∧ c ≠ "" ∧ connections !! c = Some conn
       ∧ v = if truth (password conn) then to_json (password conn)
             else dict_get (extra_dejson conn) "webhook_token" (JStr "")).
Proof.
  unfold _get_token. destruct (truth token) eqn:Htok.
  { intros [= <- <-]. by left. }
  destruct conn_id as [c|]; [|done].
  destruct (truth (Some c)) eqn:Hc; [|done].
  change (truth (Some c)) with (truth c) in Hc. apply truth_string in Hc.
  cbn. unfold get_connection.
  destruct (connections !! c) as [conn|] eqn:Hconn; [|done]. cbn.
  destruct (truth (password conn)) eqn:Hp; cbn.
  - intros [= <- <-]. right. split; [done|]. exists c, conn. by rewrite Hp.
  - destruct (truth (dict_get (extra_dejson conn) "webhook_token" (JStr "")));
      cbn; intros [= <- <-]; right; (split; [done|]); exists c, conn;
      by rewrite Hp.
Qed.

(** C8, as amended: the token a constructed hook stores is non-empty
    exactly when it came from a non-empty explicit token, a non-empty
    connection password or a non-empty [webhook_token] of the connection's
    "extra".  A connection with neither a password nor a [webhook_token]
    (the key absent, or the empty string) still constructs the hook, with
    the empty string as token.  [execute] does not look at the token: it
    makes the one POST with the stored token as endpoint. *)
Theorem stored_token_and_send conn_id token message attachments blocks channel
    username icon_emoji icon_url link_names proxy :
  (∀ c conn,
     truth token = false → conn_id = Some c → c ≠ "" →
     connections !! c = Some conn → truth (password conn) = false →
     extra_dejson conn !! "webhook_token" = None
     ∨ extra_dejson conn !! "webhook_token" = Some (JStr "") →
     ∃ h, __init__ connections conn_id token message attachments blocks
                   channel username icon_emoji icon_url link_names proxy
          = ([GetConnection c], Ok h)
          ∧ webhook_token h = JStr ""
          ∧ trace (execute http_client json_dumps h)
            = [HttpPost (request_of json_dumps h)]
          ∧ endpoint (request_of json_dumps h) = JStr "")
  ∧ (∀ t h,
       __init__ connections conn_id token message attachments blocks channel
                username icon_emoji icon_url link_names proxy = (t, Ok h) →
       (truth (webhook_token h) = true ↔
          truth token = true
          ∨ ∃ c conn, conn_id = Some c ∧ connections !! c = Some conn
              ∧ (truth (password conn) = true
                 ∨ truth (dict_get (extra_dejson conn) "webhook_token"
                            (JStr "")) = true))
       ∧ trace (execute http_client json_dumps h)
         = [HttpPost (request_of json_dumps h)]
       ∧ endpoint (request_of json_dumps h) = webhook_token h).
Proof.
  split.
  - intros c conn Htok -> Hc Hconn Hp Hw.
    eexists. unfold __init__.
    rewrite (get_token_blank_run connections token c conn
               Htok Hc Hconn Hp Hw).
    cbn. split; [reflexivity|]. split; [reflexivity|].
    split; [apply execute_posts_once | reflexivity].
  - intros t h Hinit. apply init_ok_inv, get_token_ok_inv in Hinit.
    split; [|split; [apply execute_posts_once | done]].
    destruct Hinit as [[Htok ->] | [Htok (c & conn & -> & Hc & Hconn & ->)]].
    + rewrite truth_to_json_string. naive_solver.
    + split.
      * intros Hv. right. exists c, conn. split_and!; [done..|].
        destruct (truth (password conn)); [by left | by right].
      * intros [Habs | (c' & conn' & [= <-] & Hconn' & Hsrc)]; [congruence|].
        rewrite Hconn in Hconn'. injection Hconn' as <-.
        destruct (truth (password conn)) eqn:Hp.
        -- by rewrite truth_to_json_string.
        -- by destruct Hsrc.
Qed.

End TokenBeforeSend.

(** ** The theorems at concrete inputs *)

Lemma get_token_explicit_witness :
  "T999/B999/ZZZZ" ≠ ""
  ∧ _get_token sample_connections (Some "T999/B999/ZZZZ") (Some "slack_default")
    = ([], Ok (JStr "T999/B999/ZZZZ")).
Proof.
  split; [done|].
  apply (get_token_explicit sample_connections "T999/B999/ZZZZ"
           (Some "slack_default")).
  done.
Defined.

Lemma get_token_explicit_no_lookup_witness :
  (∅ : gmap string Connection) !! "nowhere" = None
  ∧ count is_lookup (trace (_get_token ∅ (Some "T999/B999/ZZZZ") (Some "nowhere")))
    = 0
  ∧ ∀ c, result (_get_token ∅ (Some "T999/B999/ZZZZ") (Some "nowhere"))
         ≠ Raise (AirflowNotFoundException c).
Proof.
  split; [reflexivity|].
  destruct (get_token_explicit_no_lookup ∅ "T999/B999/ZZZZ" (Some "nowhere"))
    as (H0 & _ & _ & Hnf); [done|].
  exact (conj H0 Hnf).
Defined.

Lemma get_token_nothing_supplied_witness :
  truth (Some "") = false ∧ truth (@None string) = false
  ∧ _get_token sample_connections (Some "") None
    = ([], Raise (AirflowException no_token_message)).
Proof.
  split; [reflexivity|]. split; [reflexivity|].
  apply (get_token_nothing_supplied sample_connections (Some "") None);
    reflexivity.
Defined.

Lemma get_token_password_witness :
  sample_connections !! "slack_default" = Some conn_with_password
  ∧ extra_dejson conn_with_password !! "webhook_token" = Some (JStr "old")
  ∧ _get_token sample_connections None (Some "slack_default")
    = ([GetConnection "slack_default"], Ok (JStr "T000/B000/XXXX")).
Proof.
  split; [reflexivity|]. split; [reflexivity|].
  apply (get_token_password sample_connections None "slack_default"
           conn_with_password "T000/B000/XXXX");
    [reflexivity | done | reflexivity | reflexivity | done].
Defined.

Lemma get_token_extra_witness :
  sample_connections !! "slack_legacy" = Some conn_with_extra
  ∧ truth (password conn_with_extra) = false
  ∧ _get_token sample_connections (Some "") (Some "slack_legacy")
    = ([GetConnection "slack_legacy";
        Warn "DeprecationWarning" deprecation_message],
       Ok (JStr "T111/B111/YYYY"))
  ∧ count is_warn
      (trace (_get_token sample_connections (Some "") (Some "slack_legacy")))
    = 1.
Proof.
  split; [reflexivity|]. split; [reflexivity|].
  apply (get_token_extra sample_connections (Some "") "slack_legacy"
           conn_with_extra (JStr "T111/B111/YYYY"));
    [reflexivity | done | reflexivity | reflexivity | reflexivity
    | reflexivity].
Defined.

Lemma get_token_empty_connection_witness :
  sample_connections !! "slack_blank" = Some conn_blank
  ∧ truth (password conn_blank) = false
  ∧ extra_dejson conn_blank !! "webhook_token" = None
  ∧ _get_token sample_connections None (Some "slack_blank")
    = ([GetConnection "slack_blank"], Ok (JStr "")).
Proof.
  split; [reflexivity|]. split; [reflexivity|]. split; [reflexivity|].
  apply (get_token_empty_connection sample_connections None "slack_blank"
           conn_blank);
    [reflexivity | done | reflexivity | reflexivity | by left].
Defined.

(** C4: the code at the input where it departs from the claim.  The
    connection has no password and its "extra" is [{"webhook_token": null}]:
    no non-empty token, yet [_get_token] returns [None], the value read
    from "extra", where the claim and the function's own [-> str] have the
    empty string. *)
Lemma get_token_null_extra_returns_null :
  sample_connections !! "slack_null" = Some conn_null_extra
  ∧ truth (password conn_null_extra) = false
  ∧ extra_dejson conn_null_extra !! "webhook_token" = Some JNull
  ∧ truth (dict_get (extra_dejson conn_null_extra) "webhook_token" (JStr ""))
    = false
  ∧ _get_token sample_connections None (Some "slack_null")
    = ([GetConnection "slack_null"], Ok JNull)
  ∧ result (_get_token sample_connections None (Some "slack_null"))
    ≠ Ok (JStr "").
Proof. split_and!; done. Qed.

Lemma build_slack_message_payload_witness :
  all_unset (sample_hook (JStr "tok"))
  ∧ build_cmd (sample_hook (JStr "tok")) = {["text" := JStr "hello"]}
  ∧ dom (build_cmd (sample_hook (JStr "tok"))) = {["text"]}.
Proof.
  assert (all_unset (sample_hook (JStr "tok"))) as Hu by (repeat split).
  destruct (build_slack_message_payload opaque_dumps (sample_hook (JStr "tok")))
    as (_ & _ & Hdom & _ & _ & Hall).
  split; [exact Hu|]. split; [exact (Hall Hu)|].
  rewrite Hdom. reflexivity.
Defined.

Lemma blank_string_as_unset_witness :
  channel hook_blank_channel = Some "" ∧ channel hook_unset_channel = None
  ∧ build_cmd hook_blank_channel = build_cmd hook_unset_channel
  ∧ build_cmd hook_blank_channel !! "channel" = None.
Proof.
  split; [reflexivity|]. split; [reflexivity|].
  destruct (blank_string_as_unset opaque_dumps hook_blank_channel
              hook_unset_channel) as (Hcmd & _ & Hchan & _);
    [reflexivity | reflexivity | reflexivity | reflexivity
    | right; split; [by right | by left]
    | by left | by left | by left |].
  split; [exact Hcmd|]. apply Hchan. by right.
Defined.

Lemma execute_proxies_witness :
  proxy hook_blank_channel = Some "http://p:8080"
  ∧ ∃ req,
      trace (execute always_ok opaque_dumps hook_blank_channel) = [HttpPost req]
      ∧ proxies (extra_options req) = {["https" := "http://p:8080"]}
      ∧ proxies (extra_options req) !! "http" = None.
Proof.
  split; [reflexivity|].
  destruct (execute_proxies always_ok opaque_dumps hook_blank_channel)
    as (req & Htr & Hset & _).
  exists req. split; [exact Htr|].
  destruct (Hset "http://p:8080") as (Hp & _ & Hhttp); [reflexivity | done |].
  exact (conj Hp Hhttp).
Defined.

Lemma stored_token_and_send_witness :
  sample_connections !! "slack_blank" = Some conn_blank
  ∧ truth (password conn_blank) = false
  ∧ extra_dejson conn_blank !! "webhook_token" = None
  ∧ ∃ h, __init__ sample_connections (Some "slack_blank") None "hello" None
                  None None None None None false None
         = ([GetConnection "slack_blank"], Ok h)
         ∧ webhook_token h = JStr ""
         ∧ truth (webhook_token h) = false
         ∧ trace (execute always_ok opaque_dumps h)
           = [HttpPost (request_of opaque_dumps h)]
         ∧ endpoint (request_of opaque_dumps h) = JStr "".
Proof.
  split; [reflexivity|]. split; [reflexivity|]. split; [reflexivity|].
  destruct (stored_token_and_send sample_connections always_ok opaque_dumps
              (Some "slack_blank") None "hello" None None None None None
              None false None) as [Hempty Hany].
  destruct (Hempty "slack_blank" conn_blank) as (h & Hinit & Htok & Htr & Hend);
    [reflexivity | reflexivity | done | reflexivity | reflexivity | by left |].
  exists h. split; [exact Hinit|]. split; [exact Htok|].
  split; [|exact (conj Htr Hend)].
  destruct (Hany _ h Hinit) as (Htruth & _ & _).
  rewrite Htok. reflexivity.
Defined.

(** C8, as stated, fails for a connection with neither a password nor a
    [webhook_token]: the constructor returns a hook whose token is the
    empty string, and [execute] posts with it. *)
Lemma post_with_empty_token_counterexample :
  __init__ sample_connections (Some "slack_blank") None "hello" None None
           None None None None false None
  = ([GetConnection "slack_blank"], Ok (sample_hook_of "slack_blank" (JStr "")))
  ∧ webhook_token (sample_hook_of "slack_blank" (JStr "")) = JStr ""
  ∧ trace (execute always_ok opaque_dumps (sample_hook_of "slack_blank" (JStr "")))
    = [HttpPost (request_of opaque_dumps (sample_hook_of "slack_blank" (JStr "")))]
  ∧ endpoint (request_of opaque_dumps (sample_hook_of "slack_blank" (JStr "")))
    = JStr ""
  ∧ count is_post
      (trace (execute always_ok opaque_dumps
                (sample_hook_of "slack_blank" (JStr ""))))
    = 1.
Proof. split_and!; reflexivity. Qed.

(** ** Further properties of token resolution *)

Section TokenResolutionMore.
Variable connections : gmap string Connection.

(** X1: without an explicit token, a connection name the platform does not
    know makes resolution fail with the platform's not-found error, after
    the one lookup and without a warning; the constructor fails the same
    way. *)
Theorem get_token_unknown_connection token c :
  truth token = false → c ≠ "" → connections !! c = None →
  _get_token connections token (Some c)
  = ([GetConnection c], Raise (AirflowNotFoundException c))
  ∧ ∀ message attachments blocks channel username icon_emoji icon_url
      link_names proxy,
      __init__ connections (Some c) token message attachments blocks channel
               username icon_emoji icon_url link_names proxy
      = ([GetConnection c], Raise (AirflowNotFoundException c)).
Proof.
  intros Htok Hc Hconn.
  assert (_get_token connections token (Some c)
          = ([GetConnection c], Raise (AirflowNotFoundException c))) as E.
  { unfold _get_token. rewrite Htok, (truth_some_string c Hc). cbn.
    unfold get_connection. by rewrite Hconn. }
  split; [done|]. intros. unfold __init__. by rewrite E.
Qed.

(** X2: for token resolution the empty string is the same as [None], in
    the explicit token and in the connection name alike. *)
Theorem get_token_blank_as_none token token' conn_id conn_id' :
  same_or_blank token token' → same_or_blank conn_id conn_id' →
  _get_token connections token conn_id
  = _get_token connections token' conn_id'.
Proof.
  intros [-> | [Ht Ht']] [-> | [Hc Hc']]; [done | ..]; unfold _get_token.
  - destruct (truth token'); [done|].
    by rewrite (unset_or_blank_falsy _ Hc), (unset_or_blank_falsy _ Hc').
  - by rewrite (unset_or_blank_falsy _ Ht), (unset_or_blank_falsy _ Ht').
  - by rewrite (unset_or_blank_falsy _ Ht), (unset_or_blank_falsy _ Ht'),
      (unset_or_blank_falsy _ Hc), (unset_or_blank_falsy _ Hc').
Qed.

(** The shapes a run of [_get_token] can take. *)
Lemma get_token_cases token conn_id :
  (truth token = true
   ∧ _get_token connections token conn_id = ([], Ok (to_json token)))
  ∨ (truth token = false ∧ truth conn_id = false
     ∧ _get_token connections token conn_id
       = ([], Raise (AirflowException no_token_message)))
  ∨ (truth token = false ∧ ∃ c, conn_id = Some c ∧ c ≠ ""
     ∧ ((connections !! c = None
         ∧ _get_token connections token conn_id
           = ([GetConnection c], Raise (AirflowNotFoundException c)))
        ∨ ∃ conn, connections !! c = Some conn
          ∧ ((truth (password conn) = true
              ∧ _get_token connections token conn_id
                = ([GetConnection c], Ok (to_json (password conn))))
             ∨ (truth (password conn) = false
                ∧ truth (dict_get (extra_dejson conn) "webhook_token" (JStr ""))
                  = false
                ∧ _get_token connections token conn_id
                  = ([GetConnection c],
                     Ok (dict_get (extra_dejson conn) "webhook_token" (JStr ""))))
             ∨ (truth (password conn) = false
                ∧ truth (dict_get (extra_dejson conn) "webhook_token" (JStr ""))
                  = true
                ∧ _get_token connections token conn_id
                  = ([GetConnection c;
                      Warn "DeprecationWarning" deprecation_message],
                     Ok (dict_get (extra_dejson conn) "webhook_token"
                           (JStr ""))))))).
Proof.
  unfold _get_token. destruct (truth token) eqn:Htok; [by left|].
  destruct (truth conn_id) eqn:Hid; [|right; by left].
  right. right. split; [done|].
  destruct conn_id as [c|]; [|done]. exists c.
  change (truth (Some c)) with (truth c) in Hid. apply truth_string in Hid.
  split; [done|]. split; [done|]. cbn. unfold get_connection.
  destruct (connections !! c) as [conn|] eqn:Hconn; [|by left].
  right. exists conn. split; [done|]. cbn.
  destruct (truth (password conn)) eqn:Hp; [by left|]. right.
  destruct (truth (dict_get (extra_dejson conn) "webhook_token" (JStr "")))
    eqn:Hw; cbn; [right | left]; done.
Qed.

(** X3: whatever its arguments, token resolution asks for at most one
    connection, the one named, warns at most once, and posts nothing. *)
Theorem get_token_effects_bounded token conn_id :
  count is_lookup (trace (_get_token connections token conn_id)) ≤ 1
  ∧ count is_warn (trace (_get_token connections token conn_id)) ≤ 1
  ∧ count is_post (trace (_get_token connections token conn_id)) = 0
  ∧ ∀ c, GetConnection c ∈ trace (_get_token connections token conn_id) →
         conn_id = Some c.
Proof.
  destruct (get_token_cases token conn_id)
    as [[_ ->] | [(_ & _ & ->) | (_ & c & -> & _ & [[_ ->] | (conn & _ &
         [[_ ->] | [(_ & _ & ->) | (_ & _ & ->)]])])]];
    cbn; (split_and!; [vm_compute; lia | vm_compute; lia | done |]);
    intros c' Hin; set_solver.
Qed.


(** X5: token resolution raises only two errors: the configuration error,
    exactly when neither a token nor a connection name is given, and the
    not-found error, exactly when no token is given and the named
    connection is unknown. *)
Theorem get_token_raises_iff token conn_id e :
  result (_get_token connections token conn_id) = Raise e
  ↔ truth token = false
    ∧ ((truth conn_id = false ∧ e = AirflowException no_token_message)
       ∨ ∃ c, conn_id = Some c ∧ c ≠ "" ∧ connections !! c = None
              ∧ e = AirflowNotFoundException c).
Proof.
  destruct (get_token_cases token conn_id)
    as [[Ht ->] | [(Ht & Hid & ->) | (Ht & c & -> & Hc & [[Hn ->] | (conn & Hconn &
         [[Hp ->] | [(Hp & Hw & ->) | (Hp & Hw & ->)]])])]]; cbn.
  - split; [done | intros [? _]; congruence].
  - split.
    + intros [= <-]. split; [done|]. by left.
    + intros (_ & [[_ ->] | (c & -> & Hc & _)]); [done|].
      change (truth (Some c)) with (truth c) in Hid.
      apply truth_string_false in Hid. done.
  - split.
    + intros [= <-]. split; [done|]. right. by exists c.
    + intros (_ & [[Hid _] | (c' & [= <-] & _ & _ & ->)]); [|done].
      change (truth (Some c)) with (truth c) in Hid.
      apply truth_string_false in Hid. done.
  - split; [done|]. intros (_ & [[Hid _] | (c' & [= <-] & _ & Hn & _)]);
      [|congruence].
    change (truth (Some c)) with (truth c) in Hid.
    apply truth_string_false in Hid. done.
  - split; [done|]. intros (_ & [[Hid _] | (c' & [= <-] & _ & Hn & _)]);
      [|congruence].
    change (truth (Some c)) with (truth c) in Hid.
    apply truth_string_false in Hid. done.
  - split; [done|]. intros (_ & [[Hid _] | (c' & [= <-] & _ & Hn & _)]);
      [|congruence].
    change (truth (Some c)) with (truth c) in Hid.
    apply truth_string_false in Hid. done.
Qed.

(** Token resolution posts nothing. *)
Lemma get_token_posts_nothing token conn_id :
  count is_post (trace (_get_token connections token conn_id)) = 0.
Proof.
  destruct (get_token_cases token conn_id)
    as [[_ ->] | [(_ & _ & ->) | (_ & c & -> & _ & [[_ ->] | (conn & _ &
         [[_ ->] | [(_ & _ & ->) | (_ & _ & ->)]])])]]; done.
Qed.

End TokenResolutionMore.

(** ** Further properties of the payload and of execute *)

Section PayloadMore.
Variable json_dumps : json → string.

(** X6: the payload is built from the message fields alone: two hooks
    that agree on them build the same message, whatever their token,
    connection name and proxy. *)
Theorem payload_ignores_token_and_proxy (self self' : SlackWebhookHook) :
  message self = message self' →
  attachments self = attachments self' →
  blocks self = blocks self' →
  channel self = channel self' →
  username self = username self' →
  icon_emoji self = icon_emoji self' →
  icon_url self = icon_url self' →
  link_names self = link_names self' →
  build_cmd self = build_cmd self'
  ∧ _build_slack_message json_dumps self
    = _build_slack_message json_dumps self'.
Proof.
  intros Hm Ha Hb Hc Hu He Hi Hl.
  assert (build_cmd self = build_cmd self') as E.
  { unfold build_cmd. by rewrite Hm, Ha, Hb, Hc, Hu, He, Hi, Hl. }
  split; [done|]. unfold _build_slack_message. by rewrite E.
Qed.

Lemma list_if_nonempty_unset_or_empty (field : option (list json)) :
  unset_or_empty field → list_if_nonempty field = None.
Proof. by intros [-> | ->]. Qed.

(** X7: an empty [attachments] or [blocks] list is left out of the
    payload like an unset one, and a non-empty list is passed through
    element by element, unchanged. *)
Theorem list_fields_in_payload (self : SlackWebhookHook) :
  (unset_or_empty (attachments self) → build_cmd self !! "attachments" = None)
  ∧ (unset_or_empty (blocks self) → build_cmd self !! "blocks" = None)
  ∧ (∀ x l, attachments self = Some (x :: l) →
       build_cmd self !! "attachments" = Some (JList (x :: l)))
  ∧ (∀ x l, blocks self = Some (x :: l) →
       build_cmd self !! "blocks" = Some (JList (x :: l))).
Proof.
  split_and!.
  - intros H. rewrite build_cmd_lookup. unfold payload_spec; simpl.
    by apply list_if_nonempty_unset_or_empty.
  - intros H. rewrite build_cmd_lookup. unfold payload_spec; simpl.
    by apply list_if_nonempty_unset_or_empty.
  - intros x l H. rewrite build_cmd_lookup. unfold payload_spec; simpl.
    by rewrite H.
  - intros x l H. rewrite build_cmd_lookup. unfold payload_spec; simpl.
    by rewrite H.
Qed.

(** One guarded assignment of a fresh key grows the dictionary by one
    when the guard holds, and not at all otherwise. *)
Lemma size_guarded_insert (b : bool) (key : string) (v : json)
    (cmd : gmap string json) :
  cmd !! key = None →
  size (if b then <[key := v]> cmd else cmd) = Nat.b2n b + size cmd.
Proof.
  intros Hfresh. destruct b; [|done]. by rewrite map_size_insert_None.
Qed.

(** A key is still absent after guarded assignments to other keys. *)
Lemma lookup_guarded_insert_fresh (b : bool) (key : string) (v : json)
    (cmd : gmap string json) (k : string) :
  key ≠ k → cmd !! k = None →
  (if b then <[key := v]> cmd else cmd) !! k = None.
Proof. intros Hne Hk. destruct b; [by rewrite lookup_insert_ne | done]. Qed.

Ltac fresh_key :=
  repeat (apply lookup_guarded_insert_fresh; [done|]); apply lookup_empty.

(** X8: the payload has one key for [text] and one for each optional field
    that is set: between one and eight keys. *)
Theorem payload_size (self : SlackWebhookHook) :
  size (build_cmd self) = 1 + fields_set self
  ∧ 1 ≤ size (build_cmd self) ≤ 8.
Proof.
  assert (size (build_cmd self) = 1 + fields_set self) as E.
  { unfold build_cmd, fields_set.
    rewrite map_size_insert_None by fresh_key.
    repeat (rewrite size_guarded_insert by fresh_key).
    rewrite map_size_empty. lia. }
  split; [done|]. rewrite E. unfold fields_set.
  repeat match goal with
         | |- context [Nat.b2n (truth ?x)] => destruct (truth x)
         end;
    cbn; lia.
Qed.

End PayloadMore.

Section ExecuteMore.
Variable connections : gmap string Connection.
Variable http_client : request → option exn.
Variable json_dumps : json → string.

(** X9: [execute] makes one POST: to the stored token as endpoint, with
    the built message as body, the JSON content type as only header and
    the response check switched on.  It returns when the HTTP client
    succeeds and otherwise raises the client's error unchanged. *)
Theorem execute_request (self : SlackWebhookHook) :
  ∃ req,
    trace (execute http_client json_dumps self) = [HttpPost req]
    ∧ count is_post (trace (execute http_client json_dumps self)) = 1
    ∧ endpoint req = webhook_token self
    ∧ data req = json_dumps (JDict (build_cmd self))
    ∧ headers req = {["Content-type" := "application/json"]}
    ∧ check_response (extra_options req) = true
    ∧ (result (execute http_client json_dumps self) = Ok tt
       ↔ http_client req = None)
    ∧ (∀ e, result (execute http_client json_dumps self) = Raise e
            ↔ http_client req = Some e).
Proof.
  exists (request_of json_dumps self).
  destruct (execute_posts_once http_client json_dumps self) as [Ht Hr].
  rewrite Ht, Hr. split_and!; try done.
  - destruct (http_client (request_of json_dumps self)); split; done.
  - intros e. destruct (http_client (request_of json_dumps self));
      split; intros H; by simplify_eq.
Qed.

Lemma bind_ok {A B} (t : list event) (a : A) (k : A → M B) :
  ((t, Ok a) : M A) ≫= k = (t ++ trace (k a), result (k a)).
Proof. unfold mbind, M_bind, trace, result. by destruct (k a). Qed.

Lemma bind_raise {A B} (t : list event) (e : exn) (k : A → M B) :
  ((t, Raise e) : M A) ≫= k = (t, Raise e).
Proof. reflexivity. Qed.

(** The constructor runs [_get_token] and stores what it returns beside
    its other arguments. *)
Lemma init_run conn_id token message attachments blocks channel username
    icon_emoji icon_url link_names proxy :
  __init__ connections conn_id token message attachments blocks channel
           username icon_emoji icon_url link_names proxy
  = match _get_token connections token conn_id with
    | (t, Ok tok) =>
        (t, Ok {| http_conn_id := conn_id; webhook_token := tok;
                  message := message; attachments := attachments;
                  blocks := blocks; channel := channel; username := username;
                  icon_emoji := icon_emoji; icon_url := icon_url;
                  link_names := link_names; proxy := proxy |})
    | (t, Raise e) => (t, Raise e)
    end.
Proof.
  unfold __init__.
  destruct (_get_token connections token conn_id) as [t [tok|e]]; cbn;
    by rewrite ?app_nil_r.
Qed.

(** X10: constructing a hook and executing it.  When token resolution
    fails the error is the outcome and nothing is posted; when it
    succeeds, the events of the resolution are followed by exactly one
    POST, with the resolved token as endpoint, and the outcome is the HTTP
    client's. *)
Theorem construct_then_execute conn_id token message attachments blocks
    channel username icon_emoji icon_url link_names proxy :
  let init := __init__ connections conn_id token message attachments blocks
                       channel username icon_emoji icon_url link_names proxy in
  let send := init ≫= execute http_client json_dumps in
  match result init with
  | Raise e =>
      send = (trace (_get_token connections token conn_id), Raise e)
      ∧ result (_get_token connections token conn_id) = Raise e
      ∧ count is_post (trace send) = 0
  | Ok self =>
      result (_get_token connections token conn_id) = Ok (webhook_token self)
      ∧ trace send
        = trace (_get_token connections token conn_id)
          ++ [HttpPost (request_of json_dumps self)]
      ∧ endpoint (request_of json_dumps self) = webhook_token self
      ∧ count is_post (trace send) = 1
      ∧ result send
        = match http_client (request_of json_dumps self) with
          | None => Ok tt
          | Some e => Raise e
          end
  end.
Proof.
  intros init send.
  pose proof (get_token_posts_nothing connections token conn_id) as Hpost.
  subst send init. rewrite init_run.
  destruct (_get_token connections token conn_id) as [t [tok|e]];
    [|by rewrite bind_raise].
  match goal with |- context [Ok ?r] =>
    match type of r with SlackWebhookHook => set (self := r) end end.
  rewrite bind_ok.
  destruct (execute_posts_once http_client json_dumps self) as [Ht Hr].
  rewrite Ht, Hr. unfold trace, result in *. cbn [fst snd] in *.
  split_and!; try done.
  unfold count in *. by rewrite filter_app, length_app, Hpost.
Qed.

End ExecuteMore.

(** ** The further properties at concrete inputs *)

Lemma get_token_unknown_connection_witness :
  sample_connections !! "nowhere" = None
  ∧ _get_token sample_connections (Some "") (Some "nowhere")
    = ([GetConnection "nowhere"], Raise (AirflowNotFoundException "nowhere")).
Proof.
  split; [reflexivity|].
  apply (get_token_unknown_connection sample_connections (Some "") "nowhere");
    [reflexivity | done | reflexivity].
Defined.

Lemma get_token_blank_as_none_witness :
  _get_token sample_connections (Some "") (Some "slack_legacy")
  = _get_token sample_connections None (Some "slack_legacy")
  ∧ _get_token sample_connections None (Some "")
    = _get_token sample_connections (Some "") None.
Proof.
  split.
  - apply (get_token_blank_as_none sample_connections (Some "") None
             (Some "slack_legacy") (Some "slack_legacy"));
      [right; split; [by right | by left] | by left].
  - apply (get_token_blank_as_none sample_connections None (Some "")
             (Some "") None);
      right; split; (by right) || (by left).
Defined.

Lemma payload_ignores_token_and_proxy_witness :
  webhook_token hook_unset_channel ≠ webhook_token hook_other_token
  ∧ proxy hook_unset_channel ≠ proxy hook_other_token
  ∧ _build_slack_message opaque_dumps hook_unset_channel
    = _build_slack_message opaque_dumps hook_other_token
  ∧ build_cmd hook_unset_channel = build_cmd hook_other_token.
Proof.
  split; [done|]. split; [done|].
  destruct (payload_ignores_token_and_proxy opaque_dumps hook_unset_channel
              hook_other_token) as [Hcmd Hmsg]; try reflexivity.
  exact (conj Hmsg Hcmd).
Defined.

Lemma list_fields_in_payload_witness :
  attachments hook_with_lists = Some []
  ∧ build_cmd hook_with_lists !! "attachments" = None
  ∧ build_cmd hook_with_lists !! "blocks"
    = Some (JList [JDict {["type" := JStr "divider"]}]).
Proof.
  split; [reflexivity|].
  destruct (list_fields_in_payload hook_with_lists) as (Ha & _ & _ & Hb).
  split; [apply Ha; by right | by apply Hb].
Defined.
